(** * chainparamsbase.cpp: base chain parameters, their selection and options

    A shallow embedding of [src/chainparamsbase.cpp].  Every C++ function of
    the file becomes a computation over the state of the process: the
    file-static [globalChainBaseParams] and the global [gArgs] of the
    configuration manager.  The configuration manager itself ([ArgsManager],
    util/system.h and util/system.cpp) is not part of the file; its two
    methods called here are parameters of the development. *)

From Stdlib Require Import String List ZArith Permutation.
Import ListNotations.

Local Open Scope string_scope.
Local Open Scope Z_scope.

(** ** Data *)

(** Modelled from the spec: the class declaration of [CBaseChainParams]
    (chainparamsbase.h) is not among the sources.  The spec gives it two
    attributes, a data-directory suffix and a default port; the constructor
    called in the source takes them in this order. *)
Record CBaseChainParams : Type := MakeUnique
  { dataDirectorySuffix : string;
    defaultPort : Z }.

(** The enumerators of [OptionsCategory] (util/system.h) that the file uses. *)
Inductive OptionsCategory : Type :=
  | CHAINPARAMS
  | DEBUG_TEST.

Module CBaseChainParamsNames.
Definition MAIN : string := "main".
Definition TESTNET : string := "test".
Definition SIGNET : string := "signet".
Definition REGTEST : string := "regtest".
End CBaseChainParamsNames.
Import CBaseChainParamsNames.

(** How a call ends: it returns, or [assert] stops the process, or it runs
    into behaviour the language leaves undefined (a null [unique_ptr]
    dereferenced). *)
Inductive outcome (A : Type) : Type :=
  | Returns (a : A)
  | AssertionFailed
  | Undefined.
Arguments Returns {A} a.
Arguments AssertionFailed {A}.
Arguments Undefined {A}.

(** [s] occurs somewhere in [text]. *)
Definition mentions (s text : string) : bool :=
  match String.index 0 s text with
  | Some _ => true
  | None => false
  end.

(** One [AddArg] registration as the configuration manager receives it. *)
Record Arg : Type := mkArg
  { arg_name : string;
    arg_help : string;
    arg_flags : Z;
    arg_cat : OptionsCategory }.

(** [flags & f], read as a C++ condition. *)
Definition has_flag (flags f : Z) : bool := negb (Z.land flags f =? 0).

(** The four functions of the file, as calls a process can make. *)
Inductive Op : Type :=
  | OpSetupChainParamsBaseOptions
  | OpBaseParams
  | OpCreateBaseChainParams (chain : string)
  | OpSelectBaseParams (chain : string).

Section ChainParamsBase.

(** *** The configuration manager (not in the sources) *)

(** The state of [gArgs]. *)
Variable ArgsManager : Type.

(** [ArgsManager::Flags] values used by the file. *)
Variables ALLOW_ANY ALLOW_STRING DEBUG_ONLY : Z.

(** The state of the process, as far as this file sees it. *)
Record World : Type := mkWorld
  { globalChainBaseParams : option CBaseChainParams;
    gArgs : ArgsManager }.

(** The two methods called on [gArgs].  A method runs in the current
    state of the process, which it may inspect (the accessor [BaseParams]
    is public), and yields the next state of [gArgs];
    [globalChainBaseParams] has internal linkage, so nothing outside the
    file assigns to it. *)
Variable AddArg : string -> string -> Z -> OptionsCategory -> World -> ArgsManager.
Variable SelectConfigNetwork : string -> World -> ArgsManager.

(** *** Computations over the state of the process *)

Definition M (A : Type) : Type := World -> outcome (A * World).

Definition ret {A} (a : A) : M A := fun w => Returns (a, w).

Definition bind {A B} (m : M A) (k : A -> M B) : M B :=
  fun w =>
    match m w with
    | Returns (a, w') => k a w'
    | AssertionFailed => AssertionFailed
    | Undefined => Undefined
    end.

Definition assert (b : bool) : M unit :=
  fun w => if b then Returns (tt, w) else AssertionFailed.

Definition undefined {A} : M A := fun _ => Undefined.

Definition load_global : M (option CBaseChainParams) :=
  fun w => Returns (globalChainBaseParams w, w).

Definition store_global (p : CBaseChainParams) : M unit :=
  fun w => Returns (tt, {| globalChainBaseParams := Some p; gArgs := gArgs w |}).

(** A call of a method of [gArgs]. *)
Definition on_gArgs (method : World -> ArgsManager) : M unit :=
  fun w => Returns (tt, {| globalChainBaseParams := globalChainBaseParams w;
                           gArgs := method w |}).

Notation "x <- m ;; k" := (bind m (fun x => k))
  (at level 61, m at next level, right associativity).
Notation "m ;; k" := (bind m (fun _ => k))
  (at level 61, right associativity).

(** *** The functions of the file *)

(** [gArgs.AddArg(name, help, flags, cat)] *)
Definition gArgs_AddArg (name help : string) (flags : Z) (cat : OptionsCategory) : M unit :=
  on_gArgs (AddArg name help flags cat).

(** [gArgs.SelectConfigNetwork(network)] *)
Definition gArgs_SelectConfigNetwork (network : string) : M unit :=
  on_gArgs (SelectConfigNetwork network).

Definition SetupChainParamsBaseOptions : M unit :=
  gArgs_AddArg "-chain=<chain>" "Use the chain <chain> (default: main). Reserved values: main, test, regtest. With any other value, a custom chain is used. All regtest-only options are available in custom chains too." ALLOW_ANY CHAINPARAMS ;;
  gArgs_AddArg "-regtest" ("Enter regression test mode, which uses a special chain in which blocks can be solved instantly. "
               ++ "This is intended for regression testing tools and app development. Equivalent to -chain=regtest.") (Z.lor ALLOW_ANY DEBUG_ONLY) CHAINPARAMS ;;
  gArgs_AddArg "-segwitheight=<n>" "Set the activation height of segwit. -1 to disable. (regtest-only)" (Z.lor ALLOW_ANY DEBUG_ONLY) DEBUG_TEST ;;
  gArgs_AddArg "-testnet" "Use the test chain. Equivalent to -chain=test." ALLOW_ANY CHAINPARAMS ;;
  gArgs_AddArg "-vbparams=deployment:start:end" "Use given start/end times for specified version bits deployment (regtest-only)" (Z.lor ALLOW_ANY DEBUG_ONLY) CHAINPARAMS ;;
  gArgs_AddArg "-signet" "Use the signet chain. Note that the network is defined by the signet_blockscript parameter" ALLOW_ANY CHAINPARAMS ;;
  gArgs_AddArg "-signet_blockscript" "Blocks must satisfy the given script to be considered valid (only for signet networks)" ALLOW_STRING CHAINPARAMS ;;
  gArgs_AddArg "-signet_enforcescript" "Blocks must satisfy the given script to be considered valid (this replaces -signet_blockscript, and is used for opt-in-reorg mode)" ALLOW_STRING CHAINPARAMS ;;
  gArgs_AddArg "-is_test_chain" "Whether it's allowed to set -acceptnonstdtxn=0 for this chain or not. Default: 1 (regtest-only)" (Z.lor ALLOW_ANY DEBUG_ONLY) CHAINPARAMS.

Definition BaseParams : M CBaseChainParams :=
  g <- load_global ;;
  assert (match g with Some _ => true | None => false end) ;;
  match g with
  | Some p => ret p
  | None => undefined
  end.

Definition CreateBaseChainParams (chain : string) : M CBaseChainParams :=
  if (chain =? MAIN)%string then
    ret (MakeUnique "" 8332)
  else if (chain =? TESTNET)%string then
    ret (MakeUnique "testnet3" 18332)
  else if (chain =? REGTEST)%string then
    ret (MakeUnique "regtest" 18443)
  else if (chain =? SIGNET)%string then
    ret (MakeUnique "signet" 38332)
  else
    ret (MakeUnique chain 18553).

Definition SelectBaseParams (chain : string) : M unit :=
  p <- CreateBaseChainParams chain ;;
  store_global p ;;
  gArgs_SelectConfigNetwork chain.

(** *** Histories of calls *)

(** A process is a sequence of calls of the four functions; a call that
    does not return ends it. *)
Definition call (o : Op) : M unit :=
  match o with
  | OpSetupChainParamsBaseOptions => SetupChainParamsBaseOptions
  | OpBaseParams => _ <- BaseParams ;; ret tt
  | OpCreateBaseChainParams chain => _ <- CreateBaseChainParams chain ;; ret tt
  | OpSelectBaseParams chain => SelectBaseParams chain
  end.

Fixpoint calls (os : list Op) : M unit :=
  match os with
  | [] => ret tt
  | o :: rest => call o ;; calls rest
  end.

(** At the start of the process the static [unique_ptr] is null. *)
Definition process_start (g : ArgsManager) : World :=
  {| globalChainBaseParams := None; gArgs := g |}.

End ChainParamsBase.

Arguments mkWorld {ArgsManager}.
Arguments globalChainBaseParams {ArgsManager}.
Arguments gArgs {ArgsManager}.
Arguments ret {ArgsManager A}.
Arguments bind {ArgsManager A B}.
Arguments assert {ArgsManager}.
Arguments load_global {ArgsManager}.
Arguments store_global {ArgsManager}.
Arguments on_gArgs {ArgsManager}.
Arguments gArgs_AddArg {ArgsManager}.
Arguments gArgs_SelectConfigNetwork {ArgsManager}.
Arguments SetupChainParamsBaseOptions {ArgsManager}.
Arguments BaseParams {ArgsManager}.
Arguments CreateBaseChainParams {ArgsManager}.
Arguments SelectBaseParams {ArgsManager}.
Arguments call {ArgsManager}.
Arguments calls {ArgsManager}.
Arguments process_start {ArgsManager}.

(** ** A configuration manager that records what it is told *)

Module Recorder.

(** A call received by [gArgs].  For [SelectConfigNetwork] the record also
    keeps what the accessor [BaseParams] would have answered the
    configuration manager when the call began. *)
Inductive Call : Type :=
  | AddArgCall (a : Arg)
  | SelectConfigNetworkCall (network : string) (visible : outcome CBaseChainParams).

Definition Log : Type := list Call.

Definition answer {A W} (o : outcome (A * W)) : outcome A :=
  match o with
  | Returns (a, _) => Returns a
  | AssertionFailed => AssertionFailed
  | Undefined => Undefined
  end.

Definition AddArg (name help : string) (flags : Z) (cat : OptionsCategory)
    (w : World Log) : Log :=
  (gArgs w ++ [AddArgCall (mkArg name help flags cat)])%list.

Definition SelectConfigNetwork (network : string) (w : World Log) : Log :=
  (gArgs w ++ [SelectConfigNetworkCall network (answer (BaseParams w))])%list.

(** The registration made under [name], if any. *)
Fixpoint registration (name : string) (l : Log) : option Arg :=
  match l with
  | [] => None
  | AddArgCall a :: rest =>
      if (arg_name a =? name)%string then Some a else registration name rest
  | SelectConfigNetworkCall _ _ :: rest => registration name rest
  end.

(** [ArgsManager::Flags] as upstream's util/system.h has them:
    [ALLOW_ANY = ALLOW_BOOL | ALLOW_INT | ALLOW_STRING]. *)
Definition ALLOW_ANY : Z := Z.lor (Z.lor 0x01 0x02) 0x04.
Definition ALLOW_STRING : Z := 0x04.
Definition DEBUG_ONLY : Z := 0x100.

End Recorder.

(** ** The table of the factory, as a table *)

(** The four reserved rows, in the order in which the factory tests them. *)
Definition reserved_rows : list (string * CBaseChainParams) :=
  [ (MAIN, MakeUnique "" 8332);
    (TESTNET, MakeUnique "testnet3" 18332);
    (REGTEST, MakeUnique "regtest" 18443);
    (SIGNET, MakeUnique "signet" 38332) ].

(** The first row whose identifier is [chain], else the custom chain. *)
Fixpoint first_row (rows : list (string * CBaseChainParams)) (chain : string)
    : CBaseChainParams :=
  match rows with
  | [] => MakeUnique chain 18553
  | (name, p) :: rest => if (chain =? name)%string then p else first_row rest chain
  end.

Definition reserved (chain : string) : Prop :=
  chain = "main" \/ chain = "test" \/ chain = "regtest" \/ chain = "signet".

(** ** The options, by name *)

(** The names under which [SetupChainParamsBaseOptions] registers, in the
    order of the source. *)
Definition option_names : list string :=
  [ "-chain=<chain>"; "-regtest"; "-segwitheight=<n>"; "-testnet";
    "-vbparams=deployment:start:end"; "-signet"; "-signet_blockscript";
    "-signet_enforcescript"; "-is_test_chain" ].

(** The options of the regression-test chain: its shortcut, the segwit
    height, the version-bits deployment and the non-standard-transaction
    flag. *)
Definition regtest_option_names : list string :=
  [ "-regtest"; "-segwitheight=<n>"; "-vbparams=deployment:start:end";
    "-is_test_chain" ].

(** The shortcuts of the test chain and of signet. *)
Definition shortcut_option_names : list string := [ "-testnet"; "-signet" ].

(** The two script parameters of signet. *)
Definition signet_script_option_names : list string :=
  [ "-signet_blockscript"; "-signet_enforcescript" ].

(** ** Histories and logs, read as lists *)


(** The identifier that a history selects last; [sel] if it selects none. *)
Fixpoint last_selection (os : list Op) (sel : option string) : option string :=
  match os with
  | [] => sel
  | OpSelectBaseParams chain :: rest => last_selection rest (Some chain)
  | _ :: rest => last_selection rest sel
  end.



(** The [SelectConfigNetwork] calls of a log, oldest first. *)
Fixpoint recorded_networks (l : Recorder.Log)
    : list (string * outcome CBaseChainParams) :=
  match l with
  | [] => []
  | Recorder.SelectConfigNetworkCall network visible :: rest =>
      (network, visible) :: recorded_networks rest
  | Recorder.AddArgCall _ :: rest => recorded_networks rest
  end.


(** * Properties *)

Ltac run :=
  cbv beta delta [SelectBaseParams BaseParams gArgs_SelectConfigNetwork
                  gArgs_AddArg on_gArgs store_global load_global assert
                  bind ret call] in *;
  cbn beta iota in *.

Ltac not_custom H := exfalso; apply H; unfold reserved; intuition congruence.

(** *** The table *)

Lemma first_row_custom (chain : string) :
  ~ reserved chain -> first_row reserved_rows chain = MakeUnique chain 18553.
Proof.
  unfold reserved, reserved_rows, first_row, MAIN, TESTNET, REGTEST, SIGNET.
  intros H.
  destruct (String.eqb_spec chain "main"); [tauto|].
  destruct (String.eqb_spec chain "test"); [tauto|].
  destruct (String.eqb_spec chain "regtest"); [tauto|].
  destruct (String.eqb_spec chain "signet"); [tauto|].
  reflexivity.
Qed.

Lemma first_row_port (chain : string) :
  defaultPort (first_row reserved_rows chain) = 18553 <-> ~ reserved chain.
Proof.
  split.
  - intros H [E|[E|[E|E]]]; subst chain; discriminate H.
  - intros H. rewrite first_row_custom by assumption. reflexivity.
Qed.

Lemma first_row_inj (a b : string) :
  first_row reserved_rows a = first_row reserved_rows b -> a = b.
Proof.
  unfold reserved_rows, first_row, MAIN, TESTNET, REGTEST, SIGNET.
  destruct (String.eqb_spec a "main"), (String.eqb_spec b "main");
    try congruence; try discriminate;
  destruct (String.eqb_spec a "test"), (String.eqb_spec b "test");
    try congruence; try discriminate;
  destruct (String.eqb_spec a "regtest"), (String.eqb_spec b "regtest");
    try congruence; try discriminate;
  destruct (String.eqb_spec a "signet"), (String.eqb_spec b "signet");
    try congruence; try discriminate.
Qed.

Section Properties.

Context {ArgsManager : Type}.
Variables ALLOW_ANY ALLOW_STRING DEBUG_ONLY : Z.
Variable AddArg : string -> string -> Z -> OptionsCategory -> World ArgsManager -> ArgsManager.
Variable SelectConfigNetwork : string -> World ArgsManager -> ArgsManager.

Abbreviation Setup := (SetupChainParamsBaseOptions ALLOW_ANY ALLOW_STRING DEBUG_ONLY AddArg).
Abbreviation Select := (SelectBaseParams SelectConfigNetwork).
Abbreviation run_calls := (calls ALLOW_ANY ALLOW_STRING DEBUG_ONLY AddArg SelectConfigNetwork).
Abbreviation run_call := (call ALLOW_ANY ALLOW_STRING DEBUG_ONLY AddArg SelectConfigNetwork).

(** *** The factory *)

Lemma CreateBaseChainParams_table (chain : string) (w : World ArgsManager) :
  CreateBaseChainParams chain w = Returns (first_row reserved_rows chain, w).
Proof.
  unfold CreateBaseChainParams, reserved_rows, first_row.
  destruct (chain =? MAIN)%string; [reflexivity|].
  destruct (chain =? TESTNET)%string; [reflexivity|].
  destruct (chain =? REGTEST)%string; [reflexivity|].
  destruct (chain =? SIGNET)%string; reflexivity.
Qed.

(** C1.  The four reserved identifiers give the four rows of the table:
    main gives ("", 8332), test gives ("testnet3", 18332), regtest gives
    ("regtest", 18443) and signet gives ("signet", 38332); and for every
    identifier the factory returns the first row, in the order main, test,
    regtest, signet, whose identifier matches exactly. *)
Theorem CreateBaseChainParams_reserved (w : World ArgsManager) :
  CreateBaseChainParams "main" w = Returns (MakeUnique "" 8332, w) /\
  CreateBaseChainParams "test" w = Returns (MakeUnique "testnet3" 18332, w) /\
  CreateBaseChainParams "regtest" w = Returns (MakeUnique "regtest" 18443, w) /\
  CreateBaseChainParams "signet" w = Returns (MakeUnique "signet" 38332, w) /\
  (forall chain,
      CreateBaseChainParams chain w = Returns (first_row reserved_rows chain, w)) /\
  map fst reserved_rows = ["main"; "test"; "regtest"; "signet"].
Proof.
  repeat split; try reflexivity.
  intros chain. apply CreateBaseChainParams_table.
Qed.

(** C2.  An identifier that is none of the four reserved ones, the empty
    string included, makes the factory return the custom chain: the
    identifier itself as suffix and port 18553.  The factory returns for
    every string. *)
Theorem CreateBaseChainParams_custom (s : string) (w : World ArgsManager) :
  (s <> "main" -> s <> "test" -> s <> "regtest" -> s <> "signet" ->
   CreateBaseChainParams s w = Returns (MakeUnique s 18553, w)) /\
  CreateBaseChainParams "" w = Returns (MakeUnique "" 18553, w) /\
  (exists p, CreateBaseChainParams s w = Returns (p, w)).
Proof.
  split; [|split].
  - intros H1 H2 H3 H4. rewrite CreateBaseChainParams_table.
    rewrite first_row_custom; [reflexivity|].
    intros [E|[E|[E|E]]]; contradiction.
  - reflexivity.
  - eexists. apply CreateBaseChainParams_table.
Qed.

(** C7.  The factory is a function of its argument alone: called in any
    two states of the process it returns the same value, and it leaves the
    state in which it is called as it found it. *)
Theorem CreateBaseChainParams_pure (chain : string) (w1 w2 : World ArgsManager) :
  exists p,
    CreateBaseChainParams chain w1 = Returns (p, w1) /\
    CreateBaseChainParams chain w2 = Returns (p, w2).
Proof.
  exists (first_row reserved_rows chain).
  split; apply CreateBaseChainParams_table.
Qed.

(** C10.  The factory is injective: two different identifiers never give
    equal parameters, in whatever states they are passed; and the
    parameters of a custom identifier differ from those of each reserved
    one, whose ports are not 18553. *)
Theorem CreateBaseChainParams_injective
    (a b : string) (wa wb wa' wb' : World ArgsManager) (pa pb : CBaseChainParams) :
  a <> b ->
  CreateBaseChainParams a wa = Returns (pa, wa') ->
  CreateBaseChainParams b wb = Returns (pb, wb') ->
  pa <> pb /\
  (reserved a -> ~ reserved b ->
   defaultPort pa <> 18553 /\ defaultPort pb = 18553 /\ dataDirectorySuffix pb = b).
Proof.
  intros Hab Ha Hb.
  rewrite CreateBaseChainParams_table in Ha, Hb.
  assert (Ea : pa = first_row reserved_rows a) by congruence.
  assert (Eb : pb = first_row reserved_rows b) by congruence.
  clear Ha Hb. subst pa pb.
  split.
  - intros E. apply Hab. apply first_row_inj. exact E.
  - intros Ra Rb. split; [|split].
    + intros E. apply first_row_port in E. contradiction.
    + apply first_row_port. exact Rb.
    + rewrite first_row_custom by exact Rb. reflexivity.
Qed.

(** *** The slot and its accessor *)

Lemma BaseParams_empty (w : World ArgsManager) :
  globalChainBaseParams w = None -> BaseParams w = AssertionFailed.
Proof. intros H. run. rewrite H. reflexivity. Qed.

Lemma BaseParams_populated (w : World ArgsManager) (p : CBaseChainParams) :
  globalChainBaseParams w = Some p -> BaseParams w = Returns (p, w).
Proof. intros H. run. rewrite H. reflexivity. Qed.

Lemma SelectBaseParams_run (chain : string) (w : World ArgsManager) :
  let p := first_row reserved_rows chain in
  let w1 := {| globalChainBaseParams := Some p; gArgs := gArgs w |} in
  Select chain w =
  Returns (tt, {| globalChainBaseParams := Some p;
                  gArgs := SelectConfigNetwork chain w1 |}).
Proof.
  unfold SelectBaseParams, bind.
  rewrite CreateBaseChainParams_table. reflexivity.
Qed.

Lemma SetupChainParamsBaseOptions_slot (w w' : World ArgsManager) :
  Setup w = Returns (tt, w') ->
  globalChainBaseParams w' = globalChainBaseParams w.
Proof.
  unfold SetupChainParamsBaseOptions. run.
  intros H. injection H as <-. reflexivity.
Qed.

Lemma SetupChainParamsBaseOptions_returns (w : World ArgsManager) :
  exists w', Setup w = Returns (tt, w').
Proof. eexists. unfold SetupChainParamsBaseOptions. run. reflexivity. Qed.

(** What one call does to the slot. *)
Lemma call_slot (o : Op) (w w' : World ArgsManager) :
  run_call o w = Returns (tt, w') ->
  match o with
  | OpSelectBaseParams chain =>
      globalChainBaseParams w' = Some (first_row reserved_rows chain)
  | OpBaseParams =>
      globalChainBaseParams w' = globalChainBaseParams w /\
      globalChainBaseParams w <> None
  | _ => globalChainBaseParams w' = globalChainBaseParams w
  end.
Proof.
  destruct o as [| |chain|chain]; unfold call.
  - apply SetupChainParamsBaseOptions_slot.
  - unfold bind. destruct (globalChainBaseParams w) as [p|] eqn:E.
    + rewrite (BaseParams_populated w p E). unfold ret.
      intros H. injection H as <-. split; congruence.
    + rewrite (BaseParams_empty w E). discriminate.
  - unfold bind. rewrite CreateBaseChainParams_table. unfold ret.
    intros H. injection H as <-. reflexivity.
  - rewrite SelectBaseParams_run. cbv zeta.
    intros H. injection H as <-. reflexivity.
Qed.

Lemma calls_keep_selection (os : list Op) (w w' : World ArgsManager) :
  globalChainBaseParams w <> None ->
  run_calls os w = Returns (tt, w') ->
  globalChainBaseParams w' <> None.
Proof.
  revert w. induction os as [|o os IH]; intros w Hw; cbn [calls].
  - unfold ret. intros H. injection H as <-. exact Hw.
  - unfold bind at 1.
    destruct (run_call o w) as [[[] w1]| |] eqn:E; try discriminate.
    apply IH. apply call_slot in E.
    destruct o as [| |c|c]; [congruence|destruct E; congruence|congruence|congruence].
Qed.

Lemma calls_after_selection (os : list Op) (chain : string) (w w' : World ArgsManager) :
  In (OpSelectBaseParams chain) os ->
  run_calls os w = Returns (tt, w') ->
  globalChainBaseParams w' <> None.
Proof.
  revert w. induction os as [|o os IH]; intros w Hin; [destruct Hin|].
  cbn [calls]. unfold bind at 1.
  destruct (run_call o w) as [[[] w1]| |] eqn:E; try discriminate.
  destruct Hin as [->|Hin].
  - apply calls_keep_selection. apply call_slot in E. congruence.
  - apply IH. exact Hin.
Qed.

Lemma calls_before_selection (os : list Op) (w : World ArgsManager) :
  (forall chain, ~ In (OpSelectBaseParams chain) os) ->
  globalChainBaseParams w = None ->
  run_calls (os ++ [OpBaseParams]) w = AssertionFailed.
Proof.
  revert w. induction os as [|o os IH]; intros w Hno Hw.
  - cbn [app calls call]. unfold bind.
    rewrite (BaseParams_empty w Hw). reflexivity.
  - cbn [app calls]. unfold bind at 1.
    destruct (run_call o w) as [[[] w1]| |] eqn:E.
    + apply IH.
      * intros chain Hin. apply (Hno chain). right. exact Hin.
      * apply call_slot in E. destruct o as [| |c|c].
        -- congruence.
        -- destruct E as [_ E]. contradiction.
        -- congruence.
        -- exfalso. apply (Hno c). left. reflexivity.
    + reflexivity.
    + exfalso. destruct o as [| |c|c]; unfold call in E.
      * destruct (SetupChainParamsBaseOptions_returns w) as [w' Hr].
        rewrite Hr in E. discriminate.
      * unfold bind in E. rewrite (BaseParams_empty w Hw) in E. discriminate.
      * unfold bind in E. rewrite CreateBaseChainParams_table in E. discriminate.
      * rewrite SelectBaseParams_run in E. discriminate.
Qed.

(** C3.  From any state, [SelectBaseParams x] returns, and the accessor
    called next returns the value that the factory returns for [x]. *)
Theorem SelectBaseParams_then_BaseParams (x : string) (w : World ArgsManager) :
  exists w' p,
    Select x w = Returns (tt, w') /\
    BaseParams w' = Returns (p, w') /\
    CreateBaseChainParams x w' = Returns (p, w') /\
    CreateBaseChainParams x w = Returns (p, w).
Proof.
  eexists. exists (first_row reserved_rows x). split; [|split; [|split]].
  - apply SelectBaseParams_run.
  - apply BaseParams_populated. reflexivity.
  - apply CreateBaseChainParams_table.
  - apply CreateBaseChainParams_table.
Qed.

(** C4.  With the slot empty the accessor ends in the failed assertion: it
    returns no value and reaches no undefined behaviour.  With the slot
    populated it returns the stored value and leaves the state alone.  In
    terms of the history of the process: from the start of the process,
    after any calls none of which is a selection, a call of the accessor
    ends the process in the failed assertion; after any calls that all
    returned and one of which was a selection, the accessor returns. *)
Theorem BaseParams_assertion :
  (forall w : World ArgsManager,
      globalChainBaseParams w = None -> BaseParams w = AssertionFailed) /\
  (forall (w : World ArgsManager) p,
      globalChainBaseParams w = Some p -> BaseParams w = Returns (p, w)) /\
  (forall (g : ArgsManager) history,
      (forall chain, ~ In (OpSelectBaseParams chain) history) ->
      run_calls (history ++ [OpBaseParams]) (process_start g) = AssertionFailed) /\
  (forall (w0 w : World ArgsManager) history chain,
      In (OpSelectBaseParams chain) history ->
      run_calls history w0 = Returns (tt, w) ->
      exists p, BaseParams w = Returns (p, w)).
Proof.
  split; [|split; [|split]].
  - apply BaseParams_empty.
  - apply BaseParams_populated.
  - intros g history Hno. apply calls_before_selection; [exact Hno|reflexivity].
  - intros w0 w history chain Hin Hrun.
    pose proof (calls_after_selection history chain w0 w Hin Hrun) as Hsel.
    destruct (globalChainBaseParams w) as [p|] eqn:E; [|congruence].
    exists p. apply BaseParams_populated. exact E.
Qed.

(** C6.  Two selections in a row both return, and the accessor then
    returns the value of the second identifier. *)
Theorem SelectBaseParams_last_wins (a b : string) (w : World ArgsManager) :
  exists w1 w2 p,
    Select a w = Returns (tt, w1) /\
    Select b w1 = Returns (tt, w2) /\
    bind (Select a) (fun _ => Select b) w = Returns (tt, w2) /\
    BaseParams w2 = Returns (p, w2) /\
    CreateBaseChainParams b w2 = Returns (p, w2).
Proof.
  do 2 eexists. exists (first_row reserved_rows b).
  split; [apply SelectBaseParams_run|].
  split; [apply SelectBaseParams_run|].
  split; [|split].
  - unfold bind. rewrite SelectBaseParams_run. cbv zeta.
    rewrite SelectBaseParams_run. reflexivity.
  - apply BaseParams_populated. reflexivity.
  - apply CreateBaseChainParams_table.
Qed.

End Properties.

(** *** The order of the two effects of a selection *)

(** C9.  Within [SelectBaseParams x] the slot is assigned before the
    configuration manager is told: whatever the configuration manager is,
    its [SelectConfigNetwork] runs in the state that the assignment left,
    in which the accessor already returns the new value, as it does in the
    final state; and a configuration manager that asks the accessor when it
    is told records the new value, whatever the slot held before. *)
Theorem SelectBaseParams_stores_before_notifying :
  (forall (ArgsManager : Type)
          (SelectConfigNetwork : string -> World ArgsManager -> ArgsManager)
          (x : string) (w : World ArgsManager),
      exists p w1 w2,
        CreateBaseChainParams x w = Returns (p, w) /\
        store_global p w = Returns (tt, w1) /\
        gArgs_SelectConfigNetwork SelectConfigNetwork x w1 = Returns (tt, w2) /\
        SelectBaseParams SelectConfigNetwork x w = Returns (tt, w2) /\
        gArgs w2 = SelectConfigNetwork x w1 /\
        BaseParams w1 = Returns (p, w1) /\
        BaseParams w2 = Returns (p, w2)) /\
  (forall (x : string) (w : World Recorder.Log),
      exists p w2,
        CreateBaseChainParams x w = Returns (p, w) /\
        SelectBaseParams Recorder.SelectConfigNetwork x w = Returns (tt, w2) /\
        gArgs w2 =
        (gArgs w ++ [Recorder.SelectConfigNetworkCall x (Returns p)])%list).
Proof.
  split.
  - intros ArgsManager SelectConfigNetwork x w.
    exists (first_row reserved_rows x).
    do 2 eexists.
    split; [apply CreateBaseChainParams_table|].
    split; [reflexivity|].
    split; [reflexivity|].
    split; [apply SelectBaseParams_run|].
    split; [reflexivity|].
    split; apply BaseParams_populated; reflexivity.
  - intros x w. exists (first_row reserved_rows x). eexists.
    split; [apply CreateBaseChainParams_table|].
    split; [apply SelectBaseParams_run|].
    reflexivity.
Qed.

(** A selection made while another chain is selected: the record of the
    second call shows the second value, not the first. *)
Example reselection_recorded :
  calls Recorder.ALLOW_ANY Recorder.ALLOW_STRING Recorder.DEBUG_ONLY
        Recorder.AddArg Recorder.SelectConfigNetwork
        [OpSelectBaseParams "main"; OpSelectBaseParams "test"] (process_start []) =
  Returns (tt,
    {| globalChainBaseParams := Some (MakeUnique "testnet3" 18332);
       gArgs :=
         [ Recorder.SelectConfigNetworkCall "main" (Returns (MakeUnique "" 8332));
           Recorder.SelectConfigNetworkCall "test"
             (Returns (MakeUnique "testnet3" 18332)) ] |}).
Proof. reflexivity. Qed.

(** *** What [SetupChainParamsBaseOptions] registers *)


Lemma has_flag_lor (flags f : Z) : f <> 0 -> has_flag (Z.lor flags f) f = true.
Proof.
  intros Hf. unfold has_flag.
  rewrite Z.land_lor_distr_l, Z.land_diag.
  destruct (Z.eqb_spec (Z.lor (Z.land flags f) f) 0) as [E|E]; [|reflexivity].
  apply Z.lor_eq_0_iff in E. tauto.
Qed.

Lemma has_flag_disjoint (flags f : Z) : Z.land flags f = 0 -> has_flag flags f = false.
Proof. intros H. unfold has_flag. rewrite H. reflexivity. Qed.

(** C8.  Run against a configuration manager that records its calls,
    [SetupChainParamsBaseOptions] returns and appends nine registrations,
    one per name.  Those of -regtest, -segwitheight, -vbparams and
    -is_test_chain have the developer-only flag set; those of -testnet,
    -signet and the two signet script parameters have it clear; the two
    signet script parameters are registered with the string flag alone.
    The flag values come from a header that is not in the sources: all
    that is assumed is that the developer-only flag is not zero and shares
    no bit with the two value-kind flags. *)
Theorem SetupChainParamsBaseOptions_visibility
    (ALLOW_ANY ALLOW_STRING DEBUG_ONLY : Z) (w : World Recorder.Log) :
  DEBUG_ONLY <> 0 ->
  Z.land ALLOW_ANY DEBUG_ONLY = 0 ->
  Z.land ALLOW_STRING DEBUG_ONLY = 0 ->
  exists args,
    SetupChainParamsBaseOptions ALLOW_ANY ALLOW_STRING DEBUG_ONLY Recorder.AddArg w =
    Returns (tt, {| globalChainBaseParams := globalChainBaseParams w;
                    gArgs := (gArgs w ++ map Recorder.AddArgCall args)%list |}) /\
    map arg_name args = option_names /\
    (forall name, In name regtest_option_names ->
       exists a, Recorder.registration name (map Recorder.AddArgCall args) = Some a /\
                 has_flag (arg_flags a) DEBUG_ONLY = true) /\
    (forall name, In name (shortcut_option_names ++ signet_script_option_names)%list ->
       exists a, Recorder.registration name (map Recorder.AddArgCall args) = Some a /\
                 has_flag (arg_flags a) DEBUG_ONLY = false) /\
    (forall name, In name signet_script_option_names ->
       exists a, Recorder.registration name (map Recorder.AddArgCall args) = Some a /\
                 arg_flags a = ALLOW_STRING).
Proof.
  intros Hdebug Hany Hstring.
  eexists (_ :: _ :: _ :: _ :: _ :: _ :: _ :: _ :: _ :: nil).
  split.
  { unfold SetupChainParamsBaseOptions, Recorder.AddArg. run.
    cbn [gArgs globalChainBaseParams map]. repeat rewrite <- app_assoc.
    cbn [app]. reflexivity. }
  split; [reflexivity|].
  split; [|split].
  - intros name [<-|[<-|[<-|[<-|[]]]]]; eexists; (split; [reflexivity|]);
      apply has_flag_lor; exact Hdebug.
  - intros name [<-|[<-|[<-|[<-|[]]]]]; eexists; (split; [reflexivity|]);
      apply has_flag_disjoint; assumption.
  - intros name [<-|[<-|[]]]; eexists; (split; reflexivity).
Qed.

(** C5 (as the code has it).  The help text registered for -chain=<chain>
    gives main as the default, lists main, test and regtest as the reserved
    values and says that any other value is a custom chain with the
    regtest-only options; it does not contain the word signet, although
    the factory treats signet as a reserved identifier with parameters of
    its own. *)
Theorem chain_option_help_omits_signet
    (ALLOW_ANY ALLOW_STRING DEBUG_ONLY : Z) (w : World Recorder.Log) :
  exists args a,
    SetupChainParamsBaseOptions ALLOW_ANY ALLOW_STRING DEBUG_ONLY Recorder.AddArg w =
    Returns (tt, {| globalChainBaseParams := globalChainBaseParams w;
                    gArgs := (gArgs w ++ map Recorder.AddArgCall args)%list |}) /\
    Recorder.registration "-chain=<chain>" (map Recorder.AddArgCall args) = Some a /\
    arg_flags a = ALLOW_ANY /\
    mentions "(default: main)" (arg_help a) = true /\
    mentions "Reserved values: main, test, regtest." (arg_help a) = true /\
    mentions "With any other value, a custom chain is used." (arg_help a) = true /\
    mentions "All regtest-only options are available in custom chains too."
             (arg_help a) = true /\
    mentions "signet" (arg_help a) = false /\
    CreateBaseChainParams "signet" w = Returns (MakeUnique "signet" 38332, w) /\
    CreateBaseChainParams "signet" w <> Returns (MakeUnique "signet" 18553, w).
Proof.
  eexists (_ :: _ :: _ :: _ :: _ :: _ :: _ :: _ :: _ :: nil). eexists.
  split.
  { unfold SetupChainParamsBaseOptions, Recorder.AddArg. run.
    cbn [gArgs globalChainBaseParams map]. repeat rewrite <- app_assoc.
    cbn [app]. reflexivity. }
  split; [reflexivity|].
  split; [reflexivity|].
  do 5 (split; [vm_compute; reflexivity|]).
  split; [reflexivity|].
  rewrite CreateBaseChainParams_table. intros H. discriminate H.
Qed.

(** * The theorems at concrete inputs *)

(** C2 at the identifier mytestnet. *)
Lemma CreateBaseChainParams_custom_witness :
  "mytestnet" <> "main" /\ "mytestnet" <> "test" /\
  "mytestnet" <> "regtest" /\ "mytestnet" <> "signet" /\
  CreateBaseChainParams "mytestnet" (process_start (@nil Recorder.Call)) =
  Returns (MakeUnique "mytestnet" 18553, process_start []).
Proof.
  assert (H1 : "mytestnet" <> "main") by discriminate.
  assert (H2 : "mytestnet" <> "test") by discriminate.
  assert (H3 : "mytestnet" <> "regtest") by discriminate.
  assert (H4 : "mytestnet" <> "signet") by discriminate.
  repeat (split; [assumption|]).
  exact (proj1 (CreateBaseChainParams_custom "mytestnet" (process_start []))
               H1 H2 H3 H4).
Defined.

(** C10 at the reserved identifier test and the custom identifier testnet3,
    which is the suffix of test. *)
Lemma CreateBaseChainParams_injective_witness :
  "test" <> "testnet3" /\
  reserved "test" /\ ~ reserved "testnet3" /\
  MakeUnique "testnet3" 18332 <> MakeUnique "testnet3" 18553 /\
  defaultPort (MakeUnique "testnet3" 18332) <> 18553 /\
  defaultPort (MakeUnique "testnet3" 18553) = 18553 /\
  dataDirectorySuffix (MakeUnique "testnet3" 18553) = "testnet3".
Proof.
  assert (Hne : "test" <> "testnet3") by discriminate.
  assert (Ha : reserved "test") by (right; left; reflexivity).
  assert (Hb : ~ reserved "testnet3")
    by (intros [H|[H|[H|H]]]; discriminate H).
  pose (w := process_start (@nil Recorder.Call)).
  destruct (CreateBaseChainParams_injective "test" "testnet3" w w w w
              (MakeUnique "testnet3" 18332) (MakeUnique "testnet3" 18553)
              Hne eq_refl eq_refl) as [Hdiff Hports].
  repeat (split; [assumption|]).
  exact (Hports Ha Hb).
Defined.

(** C4 with the recording configuration manager: the accessor at the start
    of the process, after two calls that select nothing, and after a
    selection of regtest. *)
Lemma BaseParams_assertion_witness :
  BaseParams (process_start (@nil Recorder.Call)) = AssertionFailed /\
  calls Recorder.ALLOW_ANY Recorder.ALLOW_STRING Recorder.DEBUG_ONLY
        Recorder.AddArg Recorder.SelectConfigNetwork
        ([OpSetupChainParamsBaseOptions; OpCreateBaseChainParams "main"]
           ++ [OpBaseParams]) (process_start []) = AssertionFailed /\
  (let w := {| globalChainBaseParams := Some (MakeUnique "regtest" 18443);
               gArgs := [Recorder.SelectConfigNetworkCall "regtest"
                           (Returns (MakeUnique "regtest" 18443))] |} in
   BaseParams w = Returns (MakeUnique "regtest" 18443, w) /\
   exists p, BaseParams w = Returns (p, w)).
Proof.
  destruct (BaseParams_assertion Recorder.ALLOW_ANY Recorder.ALLOW_STRING
              Recorder.DEBUG_ONLY Recorder.AddArg Recorder.SelectConfigNetwork)
    as (Hempty & Hpopulated & Hbefore & Hafter).
  split; [apply Hempty; reflexivity|].
  split.
  - apply Hbefore. intros chain [H|[H|[]]]; discriminate H.
  - cbv zeta. split.
    + apply Hpopulated. reflexivity.
    + apply (Hafter (process_start []) _
                    [OpSelectBaseParams "regtest"; OpBaseParams] "regtest");
        [left; reflexivity|reflexivity].
Defined.

(** C8 with the flag values of the upstream header, from the start of the
    process. *)
Lemma SetupChainParamsBaseOptions_visibility_witness :
  Recorder.DEBUG_ONLY <> 0 /\
  Z.land Recorder.ALLOW_ANY Recorder.DEBUG_ONLY = 0 /\
  Z.land Recorder.ALLOW_STRING Recorder.DEBUG_ONLY = 0 /\
  exists args,
    SetupChainParamsBaseOptions Recorder.ALLOW_ANY Recorder.ALLOW_STRING
      Recorder.DEBUG_ONLY Recorder.AddArg (process_start []) =
    Returns (tt, {| globalChainBaseParams := None;
                    gArgs := map Recorder.AddArgCall args |}) /\
    map arg_name args = option_names /\
    (forall name, In name regtest_option_names ->
       exists a, Recorder.registration name (map Recorder.AddArgCall args) = Some a /\
                 has_flag (arg_flags a) Recorder.DEBUG_ONLY = true) /\
    (forall name, In name (shortcut_option_names ++ signet_script_option_names)%list ->
       exists a, Recorder.registration name (map Recorder.AddArgCall args) = Some a /\
                 has_flag (arg_flags a) Recorder.DEBUG_ONLY = false) /\
    (forall name, In name signet_script_option_names ->
       exists a, Recorder.registration name (map Recorder.AddArgCall args) = Some a /\
                 arg_flags a = Recorder.ALLOW_STRING).
Proof.
  assert (Hdebug : Recorder.DEBUG_ONLY <> 0) by discriminate.
  assert (Hany : Z.land Recorder.ALLOW_ANY Recorder.DEBUG_ONLY = 0) by reflexivity.
  assert (Hstring : Z.land Recorder.ALLOW_STRING Recorder.DEBUG_ONLY = 0)
    by reflexivity.
  repeat (split; [assumption|]).
  exact (SetupChainParamsBaseOptions_visibility
           Recorder.ALLOW_ANY Recorder.ALLOW_STRING Recorder.DEBUG_ONLY
           (process_start []) Hdebug Hany Hstring).
Defined.

(** * Further properties *)

(** ** The factory: ports, suffixes and the order of the tests *)

Lemma first_row_ports (chain : string) :
  In (defaultPort (first_row reserved_rows chain))
     [8332; 18332; 18443; 38332; 18553].
Proof.
  unfold reserved_rows, first_row.
  destruct (chain =? MAIN)%string; [cbn; auto|].
  destruct (chain =? TESTNET)%string; [cbn; auto|].
  destruct (chain =? REGTEST)%string; [cbn; auto|].
  destruct (chain =? SIGNET)%string; cbn; auto 6.
Qed.

(** X1.  Whatever the identifier, the port that the factory returns is one
    of 8332, 18332, 18443, 38332 and 18553, so it is an unprivileged port
    that fits sixteen bits; and it is 18553 exactly for the identifiers
    that are not reserved. *)
Theorem CreateBaseChainParams_port
    {ArgsManager : Type} (chain : string) (w w' : World ArgsManager)
    (p : CBaseChainParams) :
  CreateBaseChainParams chain w = Returns (p, w') ->
  In (defaultPort p) [8332; 18332; 18443; 38332; 18553] /\
  1024 <= defaultPort p <= 65535 /\
  (defaultPort p = 18553 <-> ~ reserved chain).
Proof.
  intros H. rewrite CreateBaseChainParams_table in H.
  assert (E : p = first_row reserved_rows chain) by congruence.
  subst p. clear H.
  pose proof (first_row_ports chain) as Hin.
  split; [exact Hin|]. split.
  - set (port := defaultPort (first_row reserved_rows chain)) in *.
    clearbody port. simpl In in Hin.
    destruct Hin as [<-|[<-|[<-|[<-|[<-|[]]]]]]; split; discriminate.
  - apply first_row_port.
Qed.

Lemma first_row_suffix (chain : string) :
  let suffix := dataDirectorySuffix (first_row reserved_rows chain) in
  (chain = "main" /\ suffix = "") \/
  (chain = "test" /\ suffix = "testnet3") \/
  (chain = "regtest" /\ suffix = "regtest") \/
  (chain = "signet" /\ suffix = "signet") \/
  (~ reserved chain /\ suffix = chain).
Proof.
  unfold reserved, reserved_rows, first_row, MAIN, TESTNET, REGTEST, SIGNET.
  destruct (String.eqb_spec chain "main"); [auto|].
  destruct (String.eqb_spec chain "test"); [auto|].
  destruct (String.eqb_spec chain "regtest"); [auto 6|].
  destruct (String.eqb_spec chain "signet"); [auto 8|].
  do 4 right. split; [|reflexivity].
  intros [E|[E|[E|E]]]; contradiction.
Qed.

(** X2.  Two different identifiers get the same data-directory suffix in
    exactly two cases: main and the empty identifier (both the empty
    suffix), and test and the custom identifier testnet3. *)
Theorem CreateBaseChainParams_shared_suffix
    {ArgsManager : Type} (a b : string) (wa wb wa' wb' : World ArgsManager)
    (pa pb : CBaseChainParams) :
  a <> b ->
  CreateBaseChainParams a wa = Returns (pa, wa') ->
  CreateBaseChainParams b wb = Returns (pb, wb') ->
  (dataDirectorySuffix pa = dataDirectorySuffix pb <->
   (a = "main" /\ b = "") \/ (a = "" /\ b = "main") \/
   (a = "test" /\ b = "testnet3") \/ (a = "testnet3" /\ b = "test")).
Proof.
  intros Hab Ha Hb.
  rewrite CreateBaseChainParams_table in Ha, Hb.
  assert (Ea : pa = first_row reserved_rows a) by congruence.
  assert (Eb : pb = first_row reserved_rows b) by congruence.
  clear Ha Hb. subst pa pb.
  destruct (first_row_suffix a) as [[Ca Sa]|[[Ca Sa]|[[Ca Sa]|[[Ca Sa]|[Ca Sa]]]]];
  destruct (first_row_suffix b) as [[Cb Sb]|[[Cb Sb]|[[Cb Sb]|[[Cb Sb]|[Cb Sb]]]]];
  rewrite Sa, Sb; clear Sa Sb;
  (split;
   [ intros E;
     first [ discriminate E
           | solve [exfalso; apply Hab; congruence]
           | solve [left; split; congruence]
           | solve [right; left; split; congruence]
           | solve [right; right; left; split; congruence]
           | solve [right; right; right; split; congruence]
           | solve [not_custom Ca]
           | solve [not_custom Cb] ]
   | intros [[E1 E2]|[[E1 E2]|[[E1 E2]|[E1 E2]]]];
     first [ congruence
           | solve [not_custom Ca]
           | solve [not_custom Cb] ] ]).
Qed.

Lemma reserved_rows_distinct : NoDup (map fst reserved_rows).
Proof.
  unfold reserved_rows, MAIN, TESTNET, REGTEST, SIGNET. cbn [map fst].
  repeat constructor; cbn [In];
    intros H; repeat (destruct H as [H|H]; [discriminate H|]); exact H.
Qed.

(** Rows with pairwise different identifiers can be tested in any order. *)
Lemma first_row_permutation (rows rows' : list (string * CBaseChainParams))
    (chain : string) :
  Permutation rows rows' ->
  NoDup (map fst rows) ->
  first_row rows chain = first_row rows' chain.
Proof.
  induction 1 as [|[name p] l l' Hperm IH|[name1 p1] [name2 p2] l|l l' l'' H1 IH1 H2 IH2];
    intros Hnodup.
  - reflexivity.
  - cbn [first_row]. cbn [map fst] in Hnodup.
    rewrite IH; [reflexivity|]. inversion Hnodup; assumption.
  - cbn [first_row]. cbn [map fst] in Hnodup.
    destruct (String.eqb_spec chain name1) as [E1|N1];
      destruct (String.eqb_spec chain name2) as [E2|N2]; try reflexivity.
    exfalso. inversion Hnodup as [|x xs Hnotin _]; subst.
    apply Hnotin. left. reflexivity.
  - rewrite IH1 by exact Hnodup. apply IH2.
    apply (Permutation_NoDup (l := map fst l)); [|exact Hnodup].
    apply Permutation_map. exact H1.
Qed.

(** X7.  The four reserved identifiers are pairwise different, so the
    order in which the factory compares them does not show: testing the
    four rows in any other order gives the same result. *)
Theorem CreateBaseChainParams_order_irrelevant
    {ArgsManager : Type} (rows : list (string * CBaseChainParams))
    (chain : string) (w : World ArgsManager) :
  Permutation reserved_rows rows ->
  CreateBaseChainParams chain w = Returns (first_row rows chain, w).
Proof.
  intros Hperm. rewrite CreateBaseChainParams_table.
  rewrite (first_row_permutation reserved_rows rows chain Hperm reserved_rows_distinct).
  reflexivity.
Qed.

(** ** Histories of calls *)

Section Histories.

Context {ArgsManager : Type}.
Variables ALLOW_ANY ALLOW_STRING DEBUG_ONLY : Z.
Variable AddArg : string -> string -> Z -> OptionsCategory -> World ArgsManager -> ArgsManager.
Variable SelectConfigNetwork : string -> World ArgsManager -> ArgsManager.

Abbreviation run_history := (calls ALLOW_ANY ALLOW_STRING DEBUG_ONLY AddArg SelectConfigNetwork).
Abbreviation run_one := (call ALLOW_ANY ALLOW_STRING DEBUG_ONLY AddArg SelectConfigNetwork).








Lemma last_selection_some (os : list Op) (c : string) :
  last_selection os (Some c) <> None.
Proof.
  revert c. induction os as [|o os IH]; intros c; cbn [last_selection].
  - discriminate.
  - destruct o; apply IH.
Qed.

Lemma calls_slot (os : list Op) (sel : option string) (w0 w : World ArgsManager) :
  match sel with
  | Some c => globalChainBaseParams w0 = Some (first_row reserved_rows c)
  | None => True
  end ->
  run_history os w0 = Returns (tt, w) ->
  globalChainBaseParams w =
  match last_selection os sel with
  | Some c => Some (first_row reserved_rows c)
  | None => globalChainBaseParams w0
  end.
Proof.
  revert sel w0. induction os as [|o os IH]; intros sel w0 Hsel; cbn [calls last_selection].
  - unfold ret. intros H. injection H as <-.
    destruct sel as [c|]; [exact Hsel|reflexivity].
  - unfold bind at 1.
    destruct (run_one o w0) as [[[] w1]| |] eqn:E; try discriminate.
    intros Hrun. apply call_slot in E.
    destruct o as [| |c|c].
    + rewrite (IH sel w1); [|rewrite E; exact Hsel|exact Hrun].
      rewrite E. reflexivity.
    + destruct E as [E _].
      rewrite (IH sel w1); [|rewrite E; exact Hsel|exact Hrun].
      rewrite E. reflexivity.
    + rewrite (IH sel w1); [|rewrite E; exact Hsel|exact Hrun].
      rewrite E. reflexivity.
    + rewrite (IH (Some c) w1); [|exact E|exact Hrun].
      destruct (last_selection os (Some c)) eqn:L; [reflexivity|].
      exfalso. exact (last_selection_some os c L).
Qed.

(** X3.  After any history of calls that returned, the slot holds the
    value that the factory gives for the identifier selected last, and the
    accessor returns it; a history without a selection leaves the slot as
    it found it. *)
Theorem calls_select_last (history : list Op) (w0 w : World ArgsManager) :
  run_history history w0 = Returns (tt, w) ->
  match last_selection history None with
  | Some chain =>
      BaseParams w = Returns (first_row reserved_rows chain, w) /\
      CreateBaseChainParams chain w = Returns (first_row reserved_rows chain, w)
  | None => globalChainBaseParams w = globalChainBaseParams w0
  end.
Proof.
  intros Hrun.
  pose proof (calls_slot history None w0 w I Hrun) as Hslot.
  destruct (last_selection history None) as [chain|].
  - split; [apply BaseParams_populated; exact Hslot|].
    apply CreateBaseChainParams_table.
  - exact Hslot.
Qed.



End Histories.

(** ** What the configuration manager is told *)





Section Recorded.

Variables ALLOW_ANY ALLOW_STRING DEBUG_ONLY : Z.

Abbreviation record_history :=
  (calls ALLOW_ANY ALLOW_STRING DEBUG_ONLY Recorder.AddArg Recorder.SelectConfigNetwork).
Abbreviation record_one :=
  (call ALLOW_ANY ALLOW_STRING DEBUG_ONLY Recorder.AddArg Recorder.SelectConfigNetwork).



(** X8.  [SetupChainParamsBaseOptions] returns, leaves the slot alone and
    tells the recording configuration manager nine registrations and no
    network; the nine names are pairwise different, so each registration
    is the one found under its name. *)
Theorem SetupChainParamsBaseOptions_registrations (w : World Recorder.Log) :
  exists args,
    SetupChainParamsBaseOptions ALLOW_ANY ALLOW_STRING DEBUG_ONLY Recorder.AddArg w =
    Returns (tt, {| globalChainBaseParams := globalChainBaseParams w;
                    gArgs := (gArgs w ++ map Recorder.AddArgCall args)%list |}) /\
    length args = 9%nat /\
    NoDup (map arg_name args) /\
    Forall (fun a => Recorder.registration (arg_name a)
                       (map Recorder.AddArgCall args) = Some a) args /\
    recorded_networks (map Recorder.AddArgCall args) = [].
Proof.
  eexists (_ :: _ :: _ :: _ :: _ :: _ :: _ :: _ :: _ :: nil).
  split.
  { unfold SetupChainParamsBaseOptions, Recorder.AddArg. run.
    cbn [gArgs globalChainBaseParams map]. repeat rewrite <- app_assoc.
    cbn [app]. reflexivity. }
  split; [reflexivity|]. split; [|split].
  - cbn [map arg_name].
    repeat constructor; cbn [In];
      intros H; repeat (destruct H as [H|H]; [discriminate H|]); exact H.
  - repeat constructor.
  - reflexivity.
Qed.

End Recorded.

(** ** The further properties at concrete inputs *)

(** X1 at the empty identifier. *)
Lemma CreateBaseChainParams_port_witness :
  CreateBaseChainParams "" (process_start (@nil Recorder.Call)) =
  Returns (MakeUnique "" 18553, process_start []) /\
  In 18553 [8332; 18332; 18443; 38332; 18553] /\
  1024 <= 18553 <= 65535 /\
  (18553 = 18553 <-> ~ reserved "").
Proof.
  split; [reflexivity|].
  exact (CreateBaseChainParams_port "" (process_start (@nil Recorder.Call))
           (process_start []) (MakeUnique "" 18553) eq_refl).
Defined.

(** X2 at main and the empty identifier, which share the empty suffix. *)
Lemma CreateBaseChainParams_shared_suffix_witness :
  "main" <> "" /\
  dataDirectorySuffix (MakeUnique "" 8332) = dataDirectorySuffix (MakeUnique "" 18553).
Proof.
  assert (Hne : "main" <> "") by discriminate.
  split; [exact Hne|].
  apply (proj2 (CreateBaseChainParams_shared_suffix "main" ""
                  (process_start (@nil Recorder.Call)) (process_start [])
                  (process_start []) (process_start [])
                  (MakeUnique "" 8332) (MakeUnique "" 18553)
                  Hne eq_refl eq_refl)).
  left. split; reflexivity.
Defined.

(** X7 with the four rows in the reverse order. *)
Lemma CreateBaseChainParams_order_irrelevant_witness :
  Permutation reserved_rows (rev reserved_rows) /\
  CreateBaseChainParams "regtest" (process_start (@nil Recorder.Call)) =
  Returns (first_row (rev reserved_rows) "regtest", process_start []).
Proof.
  assert (Hperm : Permutation reserved_rows (rev reserved_rows))
    by apply Permutation_rev.
  split; [exact Hperm|].
  exact (CreateBaseChainParams_order_irrelevant (rev reserved_rows) "regtest"
           (process_start []) Hperm).
Defined.

(** X3 with the recording configuration manager: two selections with
    other calls around them. *)
Lemma calls_select_last_witness :
  exists w,
    calls Recorder.ALLOW_ANY Recorder.ALLOW_STRING Recorder.DEBUG_ONLY
          Recorder.AddArg Recorder.SelectConfigNetwork
          [OpSelectBaseParams "main"; OpSetupChainParamsBaseOptions;
           OpSelectBaseParams "mytestnet"; OpBaseParams;
           OpCreateBaseChainParams "test"] (process_start []) =
    Returns (tt, w) /\
    BaseParams w = Returns (MakeUnique "mytestnet" 18553, w).
Proof.
  eexists. split; [vm_compute; reflexivity|].
  refine (proj1 (calls_select_last Recorder.ALLOW_ANY Recorder.ALLOW_STRING
                   Recorder.DEBUG_ONLY Recorder.AddArg Recorder.SelectConfigNetwork
                   [OpSelectBaseParams "main"; OpSetupChainParamsBaseOptions;
                    OpSelectBaseParams "mytestnet"; OpBaseParams;
                    OpCreateBaseChainParams "test"] (process_start []) _ _)).
  vm_compute. reflexivity.
Defined.


